(** * cloudquery_sync_dag.py: the CloudQuery download and sync tasks

    A shallow embedding of the two Airflow tasks of
    [cloudquery_sync_dag.py] ([download_cloudquery] with its helper
    [_get_cloudquery_download_url], and [run_xkcd_to_sqlite_sync]) and the
    properties their specification states about them.

    Python values are modelled as follows.
    - [str] is a [string]: the UTF-8 encoding of the text.  The strings the
      program compares against literals (platform names) are ASCII.
    - [bytes] is a [list byte].
    - [int] is [Z].
    - A raised exception is a value of [exn]; a computation is a function
      from the world (file system and the trace of external effects) to
      an outcome and the world it leaves behind.

    The host and the collaborators of the program (platform strings, temp
    directory, [os.path.join], locale, HTTP server, child processes) are
    the fields of a [Runtime], over which every statement quantifies.  The
    file system holds regular files by path.  Two things are assumed of
    the host: opening the cache path for writing succeeds, as
    [tempfile.gettempdir] answers with a directory in which it could
    create a file; and the version query run through [os.popen] leaves the
    files alone.  What the query prints is bytes, which the read decodes
    or fails to decode. *)

From Stdlib Require Import ZArith String Ascii List Lia Bool.
From Stdlib.Strings Require Import Byte.
From stdpp Require Import base option strings gmap pretty.
Import ListNotations.

Local Open Scope string_scope.
Local Open Scope Z_scope.
Local Open Scope list_scope.

(** ** Python built-ins *)

Module Py.

(** [str.lower] on one ASCII character: [A]..[Z] move to [a]..[z]. *)
Definition lower_ascii (c : ascii) : ascii :=
  let n := N_of_ascii c in
  if ((65 <=? n) && (n <=? 90))%N then ascii_of_N (n + 32) else c.

(** [str.lower]. *)
Fixpoint lower (s : string) : string :=
  match s with
  | EmptyString => EmptyString
  | String c s' => String (lower_ascii c) (lower s')
  end.

(** [str.isspace] on one ASCII character: tab, line feed, vertical tab,
    form feed, carriage return, the separators [0x1c]..[0x1f], space. *)
Definition isspace (c : ascii) : bool :=
  let n := N_of_ascii c in
  (((9 <=? n) && (n <=? 13)) || ((28 <=? n) && (n <=? 31)) || (n =? 32))%N.

(** The white space of two bytes: U+0085 and U+00A0. *)
Definition isspace2 (a b : ascii) : bool :=
  ((N_of_ascii a =? 0xc2)
   && ((N_of_ascii b =? 0x85) || (N_of_ascii b =? 0xa0)))%N.

(** The white space of three bytes: U+1680, U+2000..U+200A, U+2028,
    U+2029, U+202F, U+205F and U+3000. *)
Definition isspace3 (a b c : ascii) : bool :=
  let x := N_of_ascii a in
  let y := N_of_ascii b in
  let z := N_of_ascii c in
  (((x =? 0xe1) && (y =? 0x9a) && (z =? 0x80))
   || ((x =? 0xe2) && (y =? 0x80)
       && (((0x80 <=? z) && (z <=? 0x8a))
           || (z =? 0xa8) || (z =? 0xa9) || (z =? 0xaf)))
   || ((x =? 0xe2) && (y =? 0x81) && (z =? 0x9f))
   || ((x =? 0xe3) && (y =? 0x80) && (z =? 0x80)))%N.

(** A leading run of white space is dropped; [sp1], [sp2] and [sp3] tell
    the white space of one, two and three bytes. *)
Fixpoint strip_front (sp1 : ascii -> bool) (sp2 : ascii -> ascii -> bool)
  (sp3 : ascii -> ascii -> ascii -> bool) (s : string) : string :=
  match s with
  | EmptyString => EmptyString
  | String a s1 =>
      if sp1 a then strip_front sp1 sp2 sp3 s1
      else
        match s1 with
        | EmptyString => s
        | String b s2 =>
            if sp2 a b then strip_front sp1 sp2 sp3 s2
            else
              match s2 with
              | EmptyString => s
              | String c s3 =>
                  if sp3 a b c then strip_front sp1 sp2 sp3 s3 else s
              end
        end
  end.

(** [str.lstrip]. *)
Definition lstrip (s : string) : string :=
  strip_front isspace isspace2 isspace3 s.

(** [str.rstrip]: the same from the end, where the bytes of a character
    come last byte first. *)
Definition rstrip (s : string) : string :=
  String.rev
    (strip_front isspace (fun b a => isspace2 a b)
       (fun c b a => isspace3 a b c) (String.rev s)).

(** [str.strip]. *)
Definition strip (s : string) : string := rstrip (lstrip s).

(** The translation of line ends that a text stream applies when read:
    [\r\n] and a lone [\r] become [\n]. *)
Fixpoint universal_newlines (s : string) : string :=
  match s with
  | EmptyString => EmptyString
  | String c s1 =>
      if (N_of_ascii c =? 13)%N then
        match s1 with
        | String d s2 =>
            if (N_of_ascii d =? 10)%N
            then String d (universal_newlines s2)
            else String (ascii_of_N 10) (universal_newlines s1)
        | EmptyString => String (ascii_of_N 10) EmptyString
        end
      else String c (universal_newlines s1)
  end.

(** [str(n)] for an [int]. *)
Definition str_of_int (n : Z) : string := pretty n.

(** [x in s] for strings: [x] occurs in [s] as a contiguous block. *)
Definition contains (s x : string) : Prop :=
  exists pre post : string, s = pre +:+ x +:+ post.

(** Is the byte [b] between [lo] and [hi], both included? *)
Definition in_range (lo hi : N) (b : byte) : bool :=
  ((lo <=? Byte.to_N b) && (Byte.to_N b <=? hi))%N.

(** A continuation byte, [0x80]..[0xbf]. *)
Definition utf8_cont (b : byte) : bool := in_range 0x80 0xbf b.

(** The second byte of a three-byte sequence: no overlong form after
    [0xe0], no surrogate after [0xed]. *)
Definition utf8_second3 (b0 b1 : byte) : bool :=
  if in_range 0xe0 0xe0 b0 then in_range 0xa0 0xbf b1
  else if in_range 0xed 0xed b0 then in_range 0x80 0x9f b1
  else utf8_cont b1.

(** The second byte of a four-byte sequence: no overlong form after
    [0xf0], nothing above U+10FFFF after [0xf4]. *)
Definition utf8_second4 (b0 b1 : byte) : bool :=
  if in_range 0xf0 0xf0 b0 then in_range 0x90 0xbf b1
  else if in_range 0xf4 0xf4 b0 then in_range 0x80 0x8f b1
  else utf8_cont b1.

(** The byte sequences the strict UTF-8 codec accepts. *)
Fixpoint utf8_valid (bs : list byte) : bool :=
  match bs with
  | [] => true
  | b0 :: r0 =>
      if in_range 0x00 0x7f b0 then utf8_valid r0
      else
        match r0 with
        | [] => false
        | b1 :: r1 =>
            if in_range 0xc2 0xdf b0 then utf8_cont b1 && utf8_valid r1
            else
              match r1 with
              | [] => false
              | b2 :: r2 =>
                  if in_range 0xe0 0xef b0
                  then utf8_second3 b0 b1 && utf8_cont b2 && utf8_valid r2
                  else
                    match r2 with
                    | [] => false
                    | b3 :: r3 =>
                        in_range 0xf0 0xf4 b0 && utf8_second4 b0 b1
                        && utf8_cont b2 && utf8_cont b3 && utf8_valid r3
                    end
              end
        end
  end.

End Py.

(** ** Exceptions and outcomes *)

(** The exceptions that the two tasks and the library calls they make can
    raise. *)
Inductive exn : Type :=
  | ValueError (msg : string)
  | Exception (msg : string)
  | UnicodeDecodeError (object : list byte)
  | HTTPError (msg : string)
  | RequestException (msg : string)
  | OSError (msg : string).

(** The outcome of a call: a value, or a raised exception. *)
Inductive result (A : Type) : Type :=
  | Ok (a : A)
  | Raise (e : exn).
Arguments Ok {A} a.
Arguments Raise {A} e.

#[global] Instance result_ret : MRet result := fun A a => Ok a.
#[global] Instance result_bind : MBind result := fun A B f r =>
  match r with
  | Ok a => f a
  | Raise e => Raise e
  end.

(** The specification names errors by their role.  [error_kind] gives the
    role in which the code raises each Python exception: the [ValueError]
    of the platform mapping, the errors of [requests.get] and
    [raise_for_status], the [Exception] of the sync task. *)
Inductive ErrorKind : Type :=
  | UnsupportedPlatformError
  | DownloadError
  | SyncExecutionError.

Definition error_kind (e : exn) : option ErrorKind :=
  match e with
  | ValueError _ => Some UnsupportedPlatformError
  | HTTPError _ | RequestException _ => Some DownloadError
  | Exception _ => Some SyncExecutionError
  | UnicodeDecodeError _ | OSError _ => None
  end.

(** [bytes.decode()]: the default codec is UTF-8 with strict error
    handling. *)
Definition bytes_decode (bs : list byte) : result string :=
  if Py.utf8_valid bs then Ok (string_of_list_byte bs)
  else Raise (UnicodeDecodeError bs).

(** ** The world outside the interpreter *)

(** A regular file: its bytes and its permission bits. *)
Record File : Type := { data : list byte; mode : Z }.

(** The effects on the outside that the tasks perform, in program order. *)
Inductive Event : Type :=
  | EvLog (msg : string)
  | EvGet (url : string)
  | EvOpen (path : string)
  | EvWrite (path : string) (data : list byte)
  | EvChmod (path : string) (perm : Z)
  | EvPopen (cmd : string)
  | EvRun (args : list string).

Record World : Type := { fs : gmap string File; trace : list Event }.

(** [requests.Response], the fields the code and [raise_for_status] read. *)
Record Response : Type :=
  { status_code : Z; reason : string; url : string; content : list byte }.

(** [subprocess.CompletedProcess] of a run with [capture_output=True]. *)
Record CompletedProcess : Type :=
  { returncode : Z; stdout : list byte; stderr : list byte }.

(** What the program asks of its host and of its collaborators: the
    platform module, the temp directory, [os.path.join] of the running
    interpreter, the process umask, the HTTP server behind [requests.get],
    the command run by [os.popen] (the bytes it prints, which may depend
    on the files present), the strict decoder of the locale's encoding,
    through which a text stream is read, and the child process of
    [subprocess.run] (its result and the files it leaves). *)
Record Runtime : Type :=
  { platform_system : string;
    platform_machine : string;
    tempfile_gettempdir : string;
    os_path_join : string -> string -> string;
    umask : Z;
    requests_get : string -> result Response;
    os_popen_output : string -> gmap string File -> list byte;
    locale_decode : list byte -> result string;
    subprocess_run :
      list string -> gmap string File ->
      result CompletedProcess * gmap string File }.

(** A computation: from the world before to the outcome and the world
    after.  The world keeps what was done before an exception. *)
Definition M (A : Type) : Type := World -> result A * World.

#[global] Instance M_ret : MRet M := fun A a w => (Ok a, w).
#[global] Instance M_bind : MBind M := fun A B f c w =>
  match c w with
  | (Ok a, w') => f a w'
  | (Raise e, w') => (Raise e, w')
  end.

Definition raise {A : Type} (e : exn) : M A := fun w => (Raise e, w).

Definition lift {A : Type} (r : result A) : M A := fun w => (r, w).

Definition emit (e : Event) : M unit := fun w =>
  (Ok tt, {| fs := fs w; trace := trace w ++ [e] |}).

(** ** The library calls, as computations *)

Section Program.

Variable R : Runtime.

(** [logger.info(msg)]. *)
Definition logger_info (msg : string) : M unit := emit (EvLog msg).

(** [os.path.exists(path)]. *)
Definition os_path_exists (path : string) : M bool := fun w =>
  (Ok (match fs w !! path with Some _ => true | None => false end), w).

(** [requests.get(url)]: the request goes out, then the answer or the
    error of the transport comes back. *)
Definition get (url : string) : M Response := fun w =>
  (requests_get R url, {| fs := fs w; trace := trace w ++ [EvGet url] |}).

(** [Response.raise_for_status()]. *)
Definition raise_for_status (r : Response) : M unit :=
  if (400 <=? status_code r) && (status_code r <? 500) then
    raise (HTTPError (Py.str_of_int (status_code r) +:+ " Client Error: "
                      +:+ reason r +:+ " for url: " +:+ url r))
  else if (500 <=? status_code r) && (status_code r <? 600) then
    raise (HTTPError (Py.str_of_int (status_code r) +:+ " Server Error: "
                      +:+ reason r +:+ " for url: " +:+ url r))
  else mret tt.

(** The permission bits of a file that [open] creates. *)
Definition creation_mode : Z := Z.land 0x1b6 (Z.lnot (umask R)).

(** [with open(path, "wb") as f: f.write(bs)], taken to succeed: the file
    is created, or truncated with its permission bits kept, and receives
    [bs]. *)
Definition write_binary (path : string) (bs : list byte) : M unit := fun w =>
  let perm := match fs w !! path with
              | Some f => mode f
              | None => creation_mode
              end in
  (Ok tt,
   {| fs := <[path := {| data := bs; mode := perm |}]> (fs w);
      trace := trace w ++ [EvOpen path; EvWrite path bs] |}).

(** [os.chmod(path, perm)]. *)
Definition os_chmod (path : string) (perm : Z) : M unit := fun w =>
  match fs w !! path with
  | Some f =>
      (Ok tt,
       {| fs := <[path := {| data := data f; mode := perm |}]> (fs w);
          trace := trace w ++ [EvChmod path perm] |})
  | None =>
      (Raise (OSError ("No such file or directory: " +:+ path)),
       {| fs := fs w; trace := trace w ++ [EvChmod path perm] |})
  end.

(** [os.popen(cmd).read()]: the command runs in a shell and its standard
    output is read to the end through a text stream, which decodes it with
    the locale's encoding, strictly, and translates the line ends; bytes
    that do not decode make [read] raise.  The exit status is never asked
    for. *)
Definition popen_read (cmd : string) : M string := fun w =>
  (text ← locale_decode R (os_popen_output R cmd (fs w));
   Ok (Py.universal_newlines text),
   {| fs := fs w; trace := trace w ++ [EvPopen cmd] |}).

(** [subprocess.run(args, capture_output=True)]. *)
Definition run_capture (args : list string) : M CompletedProcess := fun w =>
  let '(r, fs') := subprocess_run R args (fs w) in
  (r, {| fs := fs'; trace := trace w ++ [EvRun args] |}).

(** ** The program *)

(** [x in l] for a list of strings. *)
Definition str_in (x : string) (l : list string) : bool :=
  existsb (String.eqb x) l.

Definition _get_cloudquery_download_url (version : string) : result string :=
  (* Detect the host OS and architecture *)
  let system := Py.lower (platform_system R) in
  let arch := Py.lower (platform_machine R) in
  (* Map to the expected values in the download URL *)
  system ←
    (if String.eqb system "darwin" then Ok "darwin"
     else if String.eqb system "linux" then Ok "linux"
     else if String.eqb system "windows" then Ok "windows"
     else Raise (ValueError ("Unsupported system: " +:+ system)));
  arch ←
    (if str_in arch ["x86_64"; "amd64"] then Ok "amd64"
     else if str_in arch ["aarch64"; "arm64"] then Ok "arm64"
     else Raise (ValueError ("Unsupported architecture: " +:+ arch)));
  (* Construct the download URL *)
  let extension :=
    if String.eqb system "windows" then ".exe" else EmptyString in
  let filename := "cloudquery_" +:+ system +:+ "_" +:+ arch +:+ extension in
  let url :=
    "https://github.com/cloudquery/cloudquery/releases/download/cli-"
    +:+ version +:+ "/" +:+ filename in
  Ok url.

(** The permission bits [0o755]. *)
Definition mode_755 : Z := 0x1ed.

Definition download_cloudquery (version : string) : M string :=
  (* Use the system's temp folder to store the binary *)
  let target_folder := tempfile_gettempdir R in
  (* Determine the file path *)
  let extension :=
    if String.eqb (Py.lower (platform_system R)) "windows" then ".exe"
    else EmptyString in
  let file_name := "cloudquery" +:+ extension in
  let file_path := os_path_join R target_folder file_name in
  (* Check if the file already exists *)
  present ← os_path_exists file_path;
  if present : bool then
    logger_info ("File already exists at " +:+ file_path
                 +:+ ", skipping download.");;
    mret file_path
  else
    (* Get the download URL *)
    url ← lift (_get_cloudquery_download_url version);
    (* Download the file *)
    logger_info ("Downloading " +:+ url +:+ " to " +:+ file_path +:+ "...");;
    response ← get url;
    raise_for_status response;;
    (* Write the binary to the file *)
    write_binary file_path (content response);;
    (* Set executable permissions on Unix-based systems *)
    (if negb (String.eqb (Py.lower (platform_system R)) "windows") then
       os_chmod file_path mode_755;;
       logger_info ("Set executable permissions on " +:+ file_path)
     else mret tt);;
    (* Check the version of the downloaded CloudQuery binary *)
    logger_info "Checking CloudQuery version...";;
    let version_check_command := file_path +:+ " --version" in
    version_output ← popen_read version_check_command;
    logger_info ("CloudQuery version: " +:+ Py.strip version_output);;
    logger_info ("Downloaded to " +:+ file_path);;
    mret file_path.

Definition run_xkcd_to_sqlite_sync (spec_file_path cloudquery_path : string)
  : M unit :=
  result ← run_capture [cloudquery_path; "sync"; spec_file_path];
  if negb (returncode result =? 0) then
    output ← lift (bytes_decode (stdout result));
    raise (Exception ("CloudQuery sync failed with return code "
                      +:+ Py.str_of_int (returncode result)
                      +:+ ". Output: " +:+ output))
  else mret tt.

End Program.

(** The argument lists handed to [subprocess.run], in a trace. *)
Definition child_runs (t : list Event) : list (list string) :=
  omap (fun e => match e with EvRun args => Some args | _ => None end) t.

(** ** Variations of a runtime *)

(** The same runtime with another HTTP server behind it. *)
Definition with_server (R : Runtime) (srv : string -> result Response)
  : Runtime :=
  {| platform_system := platform_system R;
     platform_machine := platform_machine R;
     tempfile_gettempdir := tempfile_gettempdir R;
     os_path_join := os_path_join R;
     umask := umask R;
     requests_get := srv;
     os_popen_output := os_popen_output R;
     locale_decode := locale_decode R;
     subprocess_run := subprocess_run R |}.

(** The same runtime with another child process behind [subprocess.run]. *)
Definition with_child (R : Runtime)
  (child : list string -> gmap string File ->
           result CompletedProcess * gmap string File) : Runtime :=
  {| platform_system := platform_system R;
     platform_machine := platform_machine R;
     tempfile_gettempdir := tempfile_gettempdir R;
     os_path_join := os_path_join R;
     umask := umask R;
     requests_get := requests_get R;
     os_popen_output := os_popen_output R;
     locale_decode := locale_decode R;
     subprocess_run := child |}.

(** The same runtime with another command behind [os.popen]. *)
Definition with_popen (R : Runtime)
  (cmd_output : string -> gmap string File -> list byte) : Runtime :=
  {| platform_system := platform_system R;
     platform_machine := platform_machine R;
     tempfile_gettempdir := tempfile_gettempdir R;
     os_path_join := os_path_join R;
     umask := umask R;
     requests_get := requests_get R;
     os_popen_output := cmd_output;
     locale_decode := locale_decode R;
     subprocess_run := subprocess_run R |}.

(** ** The vocabulary of the specification *)

(** The operating systems the release is built for. *)
Definition recognized_os (os : string) : Prop :=
  os = "darwin" \/ os = "linux" \/ os = "windows".

(** [normalizes raw arch]: the machine name [raw] is recognized and stands
    for the release architecture [arch]. *)
Definition normalizes (raw arch : string) : Prop :=
  ((raw = "x86_64" \/ raw = "amd64") /\ arch = "amd64") \/
  ((raw = "aarch64" \/ raw = "arm64") /\ arch = "arm64").

Definition recognized_arch (raw : string) : Prop :=
  raw = "x86_64" \/ raw = "amd64" \/ raw = "aarch64" \/ raw = "arm64".

(** Both are decidable: finitely many names to compare with. *)
#[local] Instance recognized_os_dec (os : string) : Decision (recognized_os os).
Proof. unfold recognized_os. apply _. Defined.

#[local] Instance recognized_arch_dec (raw : string) :
  Decision (recognized_arch raw).
Proof. unfold recognized_arch. apply _. Defined.

(** The release asset of [version] for [os] and [arch]. *)
Definition release_url (os arch version : string) : string :=
  "https://github.com/cloudquery/cloudquery/releases/download/cli-"
  +:+ version +:+ "/cloudquery_" +:+ os +:+ "_" +:+ arch
  +:+ (if decide (os = "windows") then ".exe" else EmptyString).

(** The place of the cached binary: the temp directory joined with
    [cloudquery], or [cloudquery.exe] on windows. *)
Definition cache_path (R : Runtime) : string :=
  os_path_join R (tempfile_gettempdir R)
    (if decide (Py.lower (platform_system R) = "windows")
     then "cloudquery.exe" else "cloudquery").

(** The status codes for which [raise_for_status] raises. *)
Definition failure_status (code : Z) : Prop := 400 <= code < 600.

(** The URLs requested, the paths opened for writing and the paths whose
    mode was changed, in a trace. *)
Definition network_calls (t : list Event) : list string :=
  omap (fun e => match e with EvGet u => Some u | _ => None end) t.

Definition opened_for_writing (t : list Event) : list string :=
  omap (fun e => match e with EvOpen p => Some p | _ => None end) t.

Definition chmod_calls (t : list Event) : list (string * Z) :=
  omap (fun e => match e with EvChmod p m => Some (p, m) | _ => None end) t.


(** ** The worlds a call leaves behind *)

Section Shapes.

Variable R : Runtime.

(** The world after some more effects that leave the files alone. *)
Definition after (w : World) (es : list Event) : World :=
  {| fs := fs w; trace := trace w ++ es |}.

(** The log line before the request. *)
Definition downloading (u : string) : Event :=
  EvLog ("Downloading " +:+ u +:+ " to " +:+ cache_path R +:+ "...").

(** The file a fresh download leaves at the cache path. *)
Definition installed (r : Response) : File :=
  {| data := content r;
     mode := if decide (Py.lower (platform_system R) = "windows")
             then creation_mode R else mode_755 |}.

Definition fresh_fs (w : World) (r : Response) : gmap string File :=
  <[cache_path R := installed r]> (fs w).

(** What the read of the version query gives, once the file is there. *)
Definition version_read (w : World) (r : Response) : result string :=
  text ← locale_decode R
           (os_popen_output R (cache_path R +:+ " --version") (fresh_fs w r));
  Ok (Py.universal_newlines text).

(** The effects of a fresh download up to the version query, in order. *)
Definition installing (u : string) (r : Response) : list Event :=
  [downloading u; EvGet u;
   EvOpen (cache_path R); EvWrite (cache_path R) (content r)]
  ++ (if decide (Py.lower (platform_system R) = "windows") then []
      else [EvChmod (cache_path R) mode_755;
            EvLog ("Set executable permissions on " +:+ cache_path R)])
  ++ [EvLog "Checking CloudQuery version...";
      EvPopen (cache_path R +:+ " --version")].

(** The effects of a fresh download whose version query was read as
    [text]. *)
Definition fresh_events (u : string) (r : Response) (text : string)
  : list Event :=
  installing u r
  ++ [EvLog ("CloudQuery version: " +:+ Py.strip text);
      EvLog ("Downloaded to " +:+ cache_path R)].

End Shapes.

(** ** Concrete hosts and collaborators *)

Module Demo.

(** [posixpath.join(a, b)]. *)
Definition endswith_sep (s : string) : bool :=
  match String.length s with
  | O => false
  | S n => String.eqb (String.substring n 1 s) "/"
  end.

Definition posixpath_join (a b : string) : string :=
  if String.prefix "/" b then b
  else if (String.eqb a EmptyString) || endswith_sep a then a +:+ b
  else a +:+ "/" +:+ b.

(** The release asset served: four bytes of an ELF header. *)
Definition asset : list byte := [x7f; x45; x4c; x46].

Definition ok_response (u : string) : Response :=
  {| status_code := 200; reason := "OK"; url := u; content := asset |}.

Definition not_found (u : string) : Response :=
  {| status_code := 404; reason := "Not Found"; url := u; content := [] |}.

(** A child process that succeeds and leaves the files alone. *)
Definition child_ok (args : list string) (files : gmap string File)
  : result CompletedProcess * gmap string File :=
  (Ok {| returncode := 0; stdout := []; stderr := [] |}, files).

(** A child process that fails with status [rc] and prints [out]. *)
Definition child_fails (rc : Z) (out err : list byte)
  (args : list string) (files : gmap string File)
  : result CompletedProcess * gmap string File :=
  (Ok {| returncode := rc; stdout := out; stderr := err |}, files).

(** The version query prints a banner and a line end. *)
Definition version_banner (cmd : string) (files : gmap string File)
  : list byte :=
  list_byte_of_string "cloudquery version 6.4.1" ++ [x0a].

(** A host described by its platform strings, with a UTF-8 locale; the
    server answers 200. *)
Definition host (system machine : string) : Runtime :=
  {| platform_system := system;
     platform_machine := machine;
     tempfile_gettempdir := "/tmp";
     os_path_join := posixpath_join;
     umask := 0x12;
     requests_get := fun u => Ok (ok_response u);
     os_popen_output := version_banner;
     locale_decode := bytes_decode;
     subprocess_run := child_ok |}.

Definition linux_x86_64 : Runtime := host "Linux" "x86_64".
Definition darwin_arm64 : Runtime := host "Darwin" "arm64".
Definition windows_amd64 : Runtime := host "Windows" "AMD64".
Definition freebsd_amd64 : Runtime := host "FreeBSD" "amd64".
Definition linux_riscv64 : Runtime := host "Linux" "riscv64".

(** A world with no files and nothing done yet. *)
Definition empty_world : World := {| fs := ∅; trace := [] |}.

(** A world where a file already sits at [path]. *)
Definition cached_world (path : string) : World :=
  {| fs := {[ path := {| data := asset; mode := mode_755 |} ]}; trace := [] |}.

End Demo.

(** ** How [download_cloudquery] runs *)

Section Runs.

Variable R : Runtime.

(** The path the code computes is [cache_path]. *)
Lemma file_path_eq :
  os_path_join R (tempfile_gettempdir R)
    ("cloudquery" +:+
     (if String.eqb (Py.lower (platform_system R)) "windows"
      then ".exe" else EmptyString))
  = cache_path R.
Proof.
  unfold cache_path.
  destruct (String.eqb_spec (Py.lower (platform_system R)) "windows") as [e|n];
    destruct (decide (Py.lower (platform_system R) = "windows"));
    try contradiction; reflexivity.
Qed.

(** A cache hit: one log line, then the path. *)
Lemma download_hit (version : string) (w : World) :
  is_Some (fs w !! cache_path R) ->
  download_cloudquery R version w =
  (Ok (cache_path R),
   after w [EvLog ("File already exists at " +:+ cache_path R
                   +:+ ", skipping download.")]).
Proof.
  intros [f Hf]. unfold download_cloudquery.
  rewrite file_path_eq.
  unfold mbind, M_bind, os_path_exists. rewrite Hf.
  reflexivity.
Qed.

(** A cache miss on a host the URL cannot be built for: the [ValueError]
    leaves the function before anything is done. *)
Lemma download_miss_unsupported (version : string) (w : World) (e : exn) :
  fs w !! cache_path R = None ->
  _get_cloudquery_download_url R version = Raise e ->
  download_cloudquery R version w = (Raise e, w).
Proof.
  intros Hmiss Hurl. unfold download_cloudquery.
  rewrite file_path_eq.
  unfold mbind, M_bind, os_path_exists, lift. rewrite Hmiss, Hurl.
  reflexivity.
Qed.

(** A cache miss and an error of the transport. *)
Lemma download_miss_transport (version : string) (w : World) (u : string)
  (e : exn) :
  fs w !! cache_path R = None ->
  _get_cloudquery_download_url R version = Ok u ->
  requests_get R u = Raise e ->
  download_cloudquery R version w = (Raise e, after w [downloading R u; EvGet u]).
Proof.
  intros Hmiss Hurl Hget. unfold download_cloudquery.
  rewrite file_path_eq.
  unfold mbind, M_bind, os_path_exists, lift. rewrite Hmiss, Hurl.
  unfold logger_info, emit, get. cbn [fs trace]. rewrite Hget.
  unfold after, downloading. rewrite <- app_assoc. reflexivity.
Qed.

(** What [raise_for_status] does, by the status code. *)
Lemma raise_for_status_failure (r : Response) (w : World) :
  failure_status (status_code r) ->
  exists msg, raise_for_status r w = (Raise (HTTPError msg), w).
Proof.
  intros [Hlo Hhi]. unfold raise_for_status.
  destruct (400 <=? status_code r) eqn:E1; [|lia].
  destruct (status_code r <? 500) eqn:E2; cbn [andb].
  - eexists; reflexivity.
  - destruct (500 <=? status_code r) eqn:E3; [|lia].
    destruct (status_code r <? 600) eqn:E4; [|lia].
    eexists; reflexivity.
Qed.

Lemma raise_for_status_ok (r : Response) (w : World) :
  ~ failure_status (status_code r) ->
  raise_for_status r w = (Ok tt, w).
Proof.
  intros Hok. unfold failure_status in Hok. unfold raise_for_status.
  destruct (400 <=? status_code r) eqn:E1;
    destruct (status_code r <? 500) eqn:E2;
    destruct (500 <=? status_code r) eqn:E3;
    destruct (status_code r <? 600) eqn:E4;
    cbn [andb]; try reflexivity; lia.
Qed.

(** A cache miss and a response with a failure status. *)
Lemma download_miss_status (version : string) (w : World) (u : string)
  (r : Response) :
  fs w !! cache_path R = None ->
  _get_cloudquery_download_url R version = Ok u ->
  requests_get R u = Ok r ->
  failure_status (status_code r) ->
  exists msg,
    download_cloudquery R version w =
    (Raise (HTTPError msg), after w [downloading R u; EvGet u]).
Proof.
  intros Hmiss Hurl Hget Hbad. unfold download_cloudquery.
  rewrite file_path_eq.
  unfold mbind, M_bind, os_path_exists, lift. rewrite Hmiss, Hurl.
  unfold logger_info, emit, get. cbn [fs trace]. rewrite Hget.
  match goal with
  | |- context [raise_for_status r ?w0] =>
      destruct (raise_for_status_failure r w0 Hbad) as [msg Hmsg];
      rewrite Hmsg
  end.
  exists msg. unfold after, downloading. rewrite <- app_assoc. reflexivity.
Qed.

(** A cache miss, a host the URL can be built for and a response that
    passes [raise_for_status]: the file is written, the version query is
    run, and the call returns if its output can be read and raises the
    error of the read otherwise. *)
Lemma download_fresh (version : string) (w : World) (u : string)
  (r : Response) :
  fs w !! cache_path R = None ->
  _get_cloudquery_download_url R version = Ok u ->
  requests_get R u = Ok r ->
  ~ failure_status (status_code r) ->
  download_cloudquery R version w =
  match version_read R w r with
  | Ok text =>
      (Ok (cache_path R),
       {| fs := fresh_fs R w r;
          trace := trace w ++ fresh_events R u r text |})
  | Raise e =>
      (Raise e,
       {| fs := fresh_fs R w r; trace := trace w ++ installing R u r |})
  end.
Proof.
  intros Hmiss Hurl Hget Hok. unfold download_cloudquery.
  rewrite file_path_eq.
  unfold mbind, M_bind, os_path_exists, lift.
  rewrite Hmiss, Hurl.
  unfold logger_info, emit, get. cbn [fs trace]. rewrite Hget.
  rewrite (raise_for_status_ok r _ Hok).
  unfold write_binary. cbn [fs trace]. rewrite Hmiss.
  unfold version_read, fresh_events, installing, fresh_fs, installed,
    downloading.
  destruct (String.eqb_spec (Py.lower (platform_system R)) "windows")
    as [Hwin|Hnix];
    destruct (decide (Py.lower (platform_system R) = "windows"));
    try contradiction; cbn [negb].
  - unfold mret, M_ret, popen_read. cbn [fs trace].
    destruct (locale_decode R _) as [text|err];
      unfold mbind, result_bind; cbn [fs trace];
      repeat rewrite <- app_assoc; cbn [app]; reflexivity.
  - unfold os_chmod, popen_read. cbn [fs trace].
    rewrite lookup_insert_eq. cbn [fs trace data].
    rewrite insert_insert_eq.
    destruct (locale_decode R _) as [text|err];
      unfold mbind, result_bind; cbn [fs trace];
      repeat rewrite <- app_assoc; cbn [app]; reflexivity.
Qed.

End Runs.

(** ** The download URL *)

(** On a recognized platform the URL is the release asset. *)
Lemma url_of_recognized (R : Runtime) (version os arch : string) :
  Py.lower (platform_system R) = os ->
  recognized_os os ->
  normalizes (Py.lower (platform_machine R)) arch ->
  _get_cloudquery_download_url R version = Ok (release_url os arch version).
Proof.
  intros Hsys Hos Harch. unfold _get_cloudquery_download_url.
  rewrite Hsys.
  destruct Hos as [-> | [-> | ->]];
    destruct Harch as [[[Hm | Hm] ->] | [[Hm | Hm] ->]];
    rewrite Hm; reflexivity.
Qed.

(** An unrecognized system is named in a [ValueError]. *)
Lemma url_of_unknown_os (R : Runtime) (version : string) :
  ~ recognized_os (Py.lower (platform_system R)) ->
  _get_cloudquery_download_url R version =
  Raise (ValueError ("Unsupported system: " +:+ Py.lower (platform_system R))).
Proof.
  intros Hos. unfold _get_cloudquery_download_url, recognized_os in *.
  destruct (String.eqb_spec (Py.lower (platform_system R)) "darwin");
    [tauto|].
  destruct (String.eqb_spec (Py.lower (platform_system R)) "linux");
    [tauto|].
  destruct (String.eqb_spec (Py.lower (platform_system R)) "windows");
    [tauto|].
  reflexivity.
Qed.

(** On a recognized system, an unrecognized machine is named in a
    [ValueError]. *)
Lemma url_of_unknown_arch (R : Runtime) (version : string) :
  recognized_os (Py.lower (platform_system R)) ->
  ~ recognized_arch (Py.lower (platform_machine R)) ->
  _get_cloudquery_download_url R version =
  Raise (ValueError ("Unsupported architecture: "
                     +:+ Py.lower (platform_machine R))).
Proof.
  intros Hos Harch. unfold _get_cloudquery_download_url, recognized_arch in *.
  assert (Hin : forall l, str_in (Py.lower (platform_machine R)) l = true ->
                          In (Py.lower (platform_machine R)) l).
  { intros l. unfold str_in. rewrite existsb_exists.
    intros [x [Hx He]]. apply String.eqb_eq in He. now subst x. }
  destruct (str_in (Py.lower (platform_machine R)) ["x86_64"; "amd64"]) eqn:E1.
  { apply Hin in E1. cbn in E1. exfalso. intuition. }
  destruct (str_in (Py.lower (platform_machine R)) ["aarch64"; "arm64"]) eqn:E2.
  { apply Hin in E2. cbn in E2. exfalso. intuition. }
  destruct Hos as [-> | [-> | ->]]; reflexivity.
Qed.

(** C1: on each of the six recognized platforms (darwin, linux or
    windows, with x86_64 read as amd64 and aarch64 as arm64) the URL built
    is exactly the release asset [cli-<version>/cloudquery_<os>_<arch>],
    with [.exe] exactly on windows, and two hosts with the same system and
    the same architecture get the same URL for the same version. *)
Theorem download_url_exact (R : Runtime) (version os arch : string) :
  Py.lower (platform_system R) = os ->
  recognized_os os ->
  normalizes (Py.lower (platform_machine R)) arch ->
  _get_cloudquery_download_url R version = Ok (release_url os arch version)
  /\ (os = "windows" ->
      release_url os arch version =
      "https://github.com/cloudquery/cloudquery/releases/download/cli-"
      +:+ version +:+ "/cloudquery_windows_" +:+ arch +:+ ".exe")
  /\ (os <> "windows" ->
      release_url os arch version =
      "https://github.com/cloudquery/cloudquery/releases/download/cli-"
      +:+ version +:+ "/cloudquery_" +:+ os +:+ "_" +:+ arch)
  /\ (forall R' : Runtime,
        Py.lower (platform_system R') = os ->
        normalizes (Py.lower (platform_machine R')) arch ->
        _get_cloudquery_download_url R' version =
        _get_cloudquery_download_url R version).
Proof.
  intros Hsys Hos Harch. repeat split.
  - now apply url_of_recognized.
  - intros ->. reflexivity.
  - intros Hnw. unfold release_url.
    destruct (decide (os = "windows")); [contradiction|].
    destruct Hos as [-> | [-> | ->]];
      destruct Harch as [[_ ->] | [_ ->]]; reflexivity.
  - intros R' Hsys' Harch'.
    rewrite (url_of_recognized R' version os arch Hsys' Hos Harch').
    now rewrite (url_of_recognized R version os arch Hsys Hos Harch).
Qed.

(** ** Strings and traces *)

Lemma append_empty_r (s : string) : s +:+ EmptyString = s.
Proof.
  induction s as [|c s IH]; [reflexivity|].
  change (String c (s +:+ EmptyString) = String c s). now rewrite IH.
Qed.

(** A message names the value it ends with. *)
Lemma contains_suffix (pre x : string) : Py.contains (pre +:+ x) x.
Proof.
  exists pre, EmptyString. now rewrite append_empty_r.
Qed.

(** Log lines are neither requests nor file operations. *)
Lemma network_calls_app (t1 t2 : list Event) :
  network_calls (t1 ++ t2) = network_calls t1 ++ network_calls t2.
Proof. apply omap_app. Qed.

Lemma opened_for_writing_app (t1 t2 : list Event) :
  opened_for_writing (t1 ++ t2) = opened_for_writing t1 ++ opened_for_writing t2.
Proof. apply omap_app. Qed.

Lemma chmod_calls_app (t1 t2 : list Event) :
  chmod_calls (t1 ++ t2) = chmod_calls t1 ++ chmod_calls t2.
Proof. apply omap_app. Qed.

(** ** Unsupported platforms *)

(** On a host that is not recognized the URL construction raises a
    [ValueError] that names the system, or the machine when the system is
    recognized. *)
Lemma url_of_unsupported (R : Runtime) (version : string) :
  ~ (recognized_os (Py.lower (platform_system R)) /\
     recognized_arch (Py.lower (platform_machine R))) ->
  exists msg : string,
    _get_cloudquery_download_url R version = Raise (ValueError msg)
    /\ (~ recognized_os (Py.lower (platform_system R)) ->
        msg = "Unsupported system: " +:+ Py.lower (platform_system R))
    /\ (recognized_os (Py.lower (platform_system R)) ->
        msg = "Unsupported architecture: "
              +:+ Py.lower (platform_machine R)).
Proof.
  intros Hbad.
  destruct (decide (recognized_os (Py.lower (platform_system R))))
    as [Hos | Hos].
  - assert (Harch : ~ recognized_arch (Py.lower (platform_machine R))).
    { intros Ha. apply Hbad. split; assumption. }
    eexists. split; [exact (url_of_unknown_arch R version Hos Harch)|].
    split; [intros Hn; contradiction | reflexivity].
  - eexists. split; [exact (url_of_unknown_os R version Hos)|].
    split; [reflexivity | intros Hy; contradiction].
Qed.

(** C2, as amended: on a host whose lower-cased system is not darwin,
    linux or windows, or whose lower-cased machine is not x86_64, amd64,
    aarch64 or arm64, [download_cloudquery] never makes a request; and
    when no file exists at the cache path it raises the [ValueError] of
    the platform mapping (the specification's UnsupportedPlatformError),
    whose message names the system when the system is unrecognized and the
    machine otherwise, leaving the world as it was. *)
Theorem unsupported_platform_fails (R : Runtime) (version : string)
  (w : World) :
  ~ (recognized_os (Py.lower (platform_system R)) /\
     recognized_arch (Py.lower (platform_machine R))) ->
  network_calls (trace (snd (download_cloudquery R version w)))
  = network_calls (trace w)
  /\ (fs w !! cache_path R = None ->
      exists msg : string,
        download_cloudquery R version w = (Raise (ValueError msg), w)
        /\ error_kind (ValueError msg) = Some UnsupportedPlatformError
        /\ (~ recognized_os (Py.lower (platform_system R)) ->
            msg = "Unsupported system: " +:+ Py.lower (platform_system R)
            /\ Py.contains msg (Py.lower (platform_system R)))
        /\ (recognized_os (Py.lower (platform_system R)) ->
            msg = "Unsupported architecture: "
                  +:+ Py.lower (platform_machine R)
            /\ Py.contains msg (Py.lower (platform_machine R)))).
Proof.
  intros Hbad.
  destruct (url_of_unsupported R version Hbad) as (msg & Hurl & Hos & Harch).
  split.
  - destruct (fs w !! cache_path R) as [f|] eqn:Hlook.
    + rewrite (download_hit R version w) by (rewrite Hlook; eauto).
      cbn [snd after trace]. rewrite network_calls_app. cbn.
      now rewrite app_nil_r.
    + now rewrite (download_miss_unsupported R version w _ Hlook Hurl).
  - intros Hmiss. exists msg.
    split; [exact (download_miss_unsupported R version w _ Hmiss Hurl)|].
    split; [reflexivity|]. split.
    + intros Hn. split; [exact (Hos Hn)|].
      rewrite (Hos Hn). apply contains_suffix.
    + intros Hy. split; [exact (Harch Hy)|].
      rewrite (Harch Hy). apply contains_suffix.
Qed.

(** ** The cache *)

(** C4: when a file exists at the cache path, [download_cloudquery]
    returns that path, makes no request and leaves the files as they are;
    called twice in a row, for any two versions, it returns the same path
    both times and the second call makes no request either. *)
Theorem download_idempotent (R : Runtime) (v1 v2 : string) (w : World) :
  is_Some (fs w !! cache_path R) ->
  forall (r1 r2 : result string) (w1 w2 : World),
    download_cloudquery R v1 w = (r1, w1) ->
    download_cloudquery R v2 w1 = (r2, w2) ->
    r1 = Ok (cache_path R)
    /\ fs w1 = fs w
    /\ network_calls (trace w1) = network_calls (trace w)
    /\ opened_for_writing (trace w1) = opened_for_writing (trace w)
    /\ chmod_calls (trace w1) = chmod_calls (trace w)
    /\ r2 = r1
    /\ fs w2 = fs w
    /\ network_calls (trace w2) = network_calls (trace w1).
Proof.
  intros Hhit r1 r2 w1 w2 H1 H2.
  rewrite (download_hit R v1 w Hhit) in H1.
  injection H1 as <- <-.
  assert (Hhit1 : is_Some (fs (after w
            [EvLog ("File already exists at " +:+ cache_path R
                    +:+ ", skipping download.")]) !! cache_path R))
    by exact Hhit.
  rewrite (download_hit R v2 _ Hhit1) in H2.
  injection H2 as <- <-.
  cbn [after fs trace].
  rewrite !network_calls_app, !opened_for_writing_app, !chmod_calls_app.
  cbn. rewrite !app_nil_r. repeat split; reflexivity.
Qed.

(** C8: when a file exists at the cache path, [download_cloudquery]
    returns the path before [_get_cloudquery_download_url] is reached: it
    succeeds on every host, also on one whose system or machine the URL
    construction rejects, and the machine name plays no part in what it
    does. *)
Theorem cache_hit_skips_platform_check (R : Runtime) (version : string)
  (w : World) :
  is_Some (fs w !! cache_path R) ->
  fst (download_cloudquery R version w) = Ok (cache_path R)
  /\ (forall e : exn,
        _get_cloudquery_download_url R version = Raise e ->
        fst (download_cloudquery R version w) <> Raise e)
  /\ (forall R' : Runtime,
        platform_system R' = platform_system R ->
        tempfile_gettempdir R' = tempfile_gettempdir R ->
        os_path_join R' = os_path_join R ->
        download_cloudquery R' version w = download_cloudquery R version w).
Proof.
  intros Hhit. rewrite (download_hit R version w Hhit).
  split; [reflexivity|]. split.
  - intros e _ Habs. discriminate Habs.
  - intros R' Hs Ht Hj.
    assert (Hp : cache_path R' = cache_path R).
    { unfold cache_path. now rewrite Hs, Ht, Hj. }
    assert (Hhit' : is_Some (fs w !! cache_path R')) by now rewrite Hp.
    rewrite (download_hit R' version w Hhit'). now rewrite Hp.
Qed.

(** C5: whatever the version, the path [download_cloudquery] returns, on
    a cache hit and after a fresh download alike, is the temp directory
    joined with [cloudquery], or with [cloudquery.exe] exactly when the
    host is windows; two calls on one host return the same path whatever
    versions they ask for. *)
Theorem returned_path_is_cache_path (R : Runtime) (version : string)
  (w w' : World) (p : string) :
  download_cloudquery R version w = (Ok p, w') ->
  p = cache_path R
  /\ (Py.lower (platform_system R) = "windows" ->
      p = os_path_join R (tempfile_gettempdir R) "cloudquery.exe")
  /\ (Py.lower (platform_system R) <> "windows" ->
      p = os_path_join R (tempfile_gettempdir R) "cloudquery")
  /\ (forall (version2 : string) (w2 w2' : World) (p2 : string),
        download_cloudquery R version2 w2 = (Ok p2, w2') -> p2 = p).
Proof.
  assert (Hpath : forall v x x' q,
             download_cloudquery R v x = (Ok q, x') -> q = cache_path R).
  { intros v x x' q Hrun.
    destruct (fs x !! cache_path R) as [f|] eqn:Hlook.
    - rewrite (download_hit R v x) in Hrun by (rewrite Hlook; eauto).
      now injection Hrun as <- _.
    - destruct (_get_cloudquery_download_url R v) as [u|e] eqn:Hurl.
      2:{ rewrite (download_miss_unsupported R v x e Hlook Hurl) in Hrun.
          discriminate Hrun. }
      destruct (requests_get R u) as [r|e] eqn:Hget.
      2:{ rewrite (download_miss_transport R v x u e Hlook Hurl Hget) in Hrun.
          discriminate Hrun. }
      destruct (decide (400 <= status_code r < 600)) as [Hbad|Hok].
      + destruct (download_miss_status R v x u r Hlook Hurl Hget Hbad)
          as [msg Hmsg].
        rewrite Hmsg in Hrun. discriminate Hrun.
      + rewrite (download_fresh R v x u r Hlook Hurl Hget Hok) in Hrun.
        destruct (version_read R x r); [|discriminate Hrun].
        now injection Hrun as <- _. }
  intros Hrun. pose proof (Hpath _ _ _ _ Hrun) as ->.
  repeat split.
  - intros Hwin. unfold cache_path.
    destruct (decide (Py.lower (platform_system R) = "windows"));
      [reflexivity | contradiction].
  - intros Hnix. unfold cache_path.
    destruct (decide (Py.lower (platform_system R) = "windows"));
      [contradiction | reflexivity].
  - intros v2 x x' q Hrun2. exact (Hpath _ _ _ _ Hrun2).
Qed.

(** ** Downloading *)

(** A successful call that started without the file went through the whole
    download, and the output of the version query could be read. *)
Lemma download_ok_inv (R : Runtime) (version : string) (w w' : World)
  (p : string) :
  fs w !! cache_path R = None ->
  download_cloudquery R version w = (Ok p, w') ->
  exists (u : string) (r : Response) (text : string),
    _get_cloudquery_download_url R version = Ok u
    /\ requests_get R u = Ok r
    /\ ~ failure_status (status_code r)
    /\ version_read R w r = Ok text
    /\ p = cache_path R
    /\ w' = {| fs := fresh_fs R w r;
               trace := trace w ++ fresh_events R u r text |}.
Proof.
  intros Hmiss Hrun.
  destruct (_get_cloudquery_download_url R version) as [u|e] eqn:Hurl.
  2:{ rewrite (download_miss_unsupported R version w e Hmiss Hurl) in Hrun.
      discriminate Hrun. }
  destruct (requests_get R u) as [r|e] eqn:Hget.
  2:{ rewrite (download_miss_transport R version w u e Hmiss Hurl Hget) in Hrun.
      discriminate Hrun. }
  destruct (decide (400 <= status_code r < 600)) as [Hbad|Hok].
  - destruct (download_miss_status R version w u r Hmiss Hurl Hget Hbad)
      as [msg Hmsg].
    rewrite Hmsg in Hrun. discriminate Hrun.
  - rewrite (download_fresh R version w u r Hmiss Hurl Hget Hok) in Hrun.
    destruct (version_read R w r) as [text|e] eqn:Hread;
      [|discriminate Hrun].
    injection Hrun as <- <-. exists u, r, text. auto 10.
Qed.

(** The requests, the opened files and the mode changes of a fresh
    download. *)
Lemma network_calls_installing (R : Runtime) (u : string) (r : Response) :
  network_calls (installing R u r) = [u].
Proof.
  unfold installing.
  destruct (decide (Py.lower (platform_system R) = "windows")); reflexivity.
Qed.

Lemma network_calls_fresh (R : Runtime) (u : string) (r : Response)
  (text : string) :
  network_calls (fresh_events R u r text) = [u].
Proof.
  unfold fresh_events.
  now rewrite network_calls_app, network_calls_installing.
Qed.

Lemma opened_installing (R : Runtime) (u : string) (r : Response) :
  opened_for_writing (installing R u r) = [cache_path R].
Proof.
  unfold installing.
  destruct (decide (Py.lower (platform_system R) = "windows")); reflexivity.
Qed.

Lemma chmod_calls_installing (R : Runtime) (u : string) (r : Response) :
  chmod_calls (installing R u r) =
  if decide (Py.lower (platform_system R) = "windows") then []
  else [(cache_path R, mode_755)].
Proof.
  unfold installing.
  destruct (decide (Py.lower (platform_system R) = "windows")); reflexivity.
Qed.


(** C6: on a cache miss, on a host the URL can be built for, one GET is
    made, on that URL; a response whose status is 4xx or 5xx makes the
    call raise the [HTTPError] of [raise_for_status] (the specification's
    DownloadError); any other response has its whole body written to the
    cache path, where it is when the call ends; the call then returns the
    path, unless the output of the version query cannot be read, in which
    case the error of the read is raised with the file in place. *)
Theorem download_on_miss (R : Runtime) (version : string) (w : World)
  (u : string) :
  fs w !! cache_path R = None ->
  _get_cloudquery_download_url R version = Ok u ->
  network_calls (trace (snd (download_cloudquery R version w)))
  = network_calls (trace w) ++ [u]
  /\ (forall r : Response,
        requests_get R u = Ok r ->
        failure_status (status_code r) ->
        exists msg : string,
          fst (download_cloudquery R version w) = Raise (HTTPError msg)
          /\ error_kind (HTTPError msg) = Some DownloadError)
  /\ (forall r : Response,
        requests_get R u = Ok r ->
        ~ failure_status (status_code r) ->
        (exists f : File,
           fs (snd (download_cloudquery R version w)) !! cache_path R
           = Some f
           /\ data f = content r)
        /\ EvWrite (cache_path R) (content r)
             ∈ trace (snd (download_cloudquery R version w))
        /\ fst (download_cloudquery R version w)
           = match version_read R w r with
             | Ok _ => Ok (cache_path R)
             | Raise e => Raise e
             end).
Proof.
  intros Hmiss Hurl. split; [|split].
  - destruct (requests_get R u) as [r|e] eqn:Hget.
    + destruct (decide (400 <= status_code r < 600)) as [Hbad|Hok].
      * destruct (download_miss_status R version w u r Hmiss Hurl Hget Hbad)
          as [msg ->].
        cbn [snd after trace]. rewrite network_calls_app. reflexivity.
      * rewrite (download_fresh R version w u r Hmiss Hurl Hget Hok).
        destruct (version_read R w r); cbn [snd trace];
          rewrite network_calls_app;
          [now rewrite network_calls_fresh
          | now rewrite network_calls_installing].
    + rewrite (download_miss_transport R version w u e Hmiss Hurl Hget).
      cbn [snd after trace]. rewrite network_calls_app. reflexivity.
  - intros r Hget Hbad.
    destruct (download_miss_status R version w u r Hmiss Hurl Hget Hbad)
      as [msg ->].
    exists msg. split; reflexivity.
  - intros r Hget Hok.
    rewrite (download_fresh R version w u r Hmiss Hurl Hget Hok).
    assert (Hwritten : EvWrite (cache_path R) (content r) ∈ installing R u r).
    { unfold installing. rewrite elem_of_app. left.
      do 3 apply list_elem_of_further. apply list_elem_of_here. }
    destruct (version_read R w r) as [text|e]; cbn [fst snd fs trace];
      (split; [exists (installed R r); unfold fresh_fs;
               rewrite lookup_insert_eq; split; reflexivity|]);
      (split; [|reflexivity]).
    + unfold fresh_events. rewrite !elem_of_app. right. left. exact Hwritten.
    + rewrite elem_of_app. right. exact Hwritten.
Qed.

(** C9: on a cache miss, when the GET fails, by an error of the transport
    or by a 4xx or 5xx status, [download_cloudquery] raises with the files
    as they were: the cache path was not opened and no file is there. *)
Theorem failed_get_leaves_files (R : Runtime) (version : string) (w : World)
  (u : string) :
  fs w !! cache_path R = None ->
  _get_cloudquery_download_url R version = Ok u ->
  (exists e : exn, requests_get R u = Raise e) \/
  (exists r : Response,
     requests_get R u = Ok r /\ failure_status (status_code r)) ->
  exists (e : exn) (w' : World),
    download_cloudquery R version w = (Raise e, w')
    /\ fs w' = fs w
    /\ fs w' !! cache_path R = None
    /\ opened_for_writing (trace w') = opened_for_writing (trace w).
Proof.
  intros Hmiss Hurl [[e Hget] | [r [Hget Hbad]]].
  - exists e, (after w [downloading R u; EvGet u]).
    rewrite (download_miss_transport R version w u e Hmiss Hurl Hget).
    cbn [after fs trace]. rewrite opened_for_writing_app. cbn.
    rewrite app_nil_r. auto.
  - destruct (download_miss_status R version w u r Hmiss Hurl Hget Hbad)
      as [msg Hmsg].
    exists (HTTPError msg), (after w [downloading R u; EvGet u]).
    rewrite Hmsg. cbn [after fs trace]. rewrite opened_for_writing_app. cbn.
    rewrite app_nil_r. auto.
Qed.


(** C10, at an output that cannot be read: the server answers 200, the
    file is written and made executable, and the binary prints the single
    byte [0xff] when asked for its version; on a host with a UTF-8 locale
    the read of that output raises [UnicodeDecodeError], and so does
    [download_cloudquery], with the file in place and no path returned. *)
Theorem version_check_undecodable_output :
  let R := with_popen Demo.linux_x86_64 (fun _ _ => [xff]) in
  fs Demo.empty_world !! cache_path R = None
  /\ download_cloudquery R "v6.4.1" Demo.empty_world
     = (Raise (UnicodeDecodeError [xff]),
        {| fs := {[ "/tmp/cloudquery" :=
                      {| data := Demo.asset; mode := 493 |} ]};
           trace :=
             [EvLog "Downloading https://github.com/cloudquery/cloudquery/releases/download/cli-v6.4.1/cloudquery_linux_amd64 to /tmp/cloudquery...";
              EvGet "https://github.com/cloudquery/cloudquery/releases/download/cli-v6.4.1/cloudquery_linux_amd64";
              EvOpen "/tmp/cloudquery";
              EvWrite "/tmp/cloudquery" Demo.asset;
              EvChmod "/tmp/cloudquery" 493;
              EvLog "Set executable permissions on /tmp/cloudquery";
              EvLog "Checking CloudQuery version...";
              EvPopen "/tmp/cloudquery --version"] |})
  /\ forall p : string,
       fst (download_cloudquery R "v6.4.1" Demo.empty_world) <> Ok p.
Proof.
  split; [reflexivity|]. split.
  - vm_compute. reflexivity.
  - intros p Habs. vm_compute in Habs. discriminate Habs.
Qed.

(** ** The sync task *)

(** The world after the child process of the sync has ended. *)
Lemma run_capture_eq (R : Runtime) (args : list string) (w : World)
  (r : result CompletedProcess) (files : gmap string File) :
  subprocess_run R args (fs w) = (r, files) ->
  run_capture R args w = (r, {| fs := files; trace := trace w ++ [EvRun args] |}).
Proof.
  intros Hrun. unfold run_capture. now rewrite Hrun.
Qed.

(** What the sync task does once its child process has ended: it returns
    [None] on exit code zero and raises otherwise; when the captured
    output decodes, the error is the [Exception] whose message carries the
    exit code and that text, and the captured standard error plays no part. *)
Lemma sync_outcome (R : Runtime) (spec_file_path cloudquery_path : string)
  (w : World) (r : CompletedProcess) (files : gmap string File) :
  subprocess_run R [cloudquery_path; "sync"; spec_file_path] (fs w)
  = (Ok r, files) ->
  let w' := {| fs := files;
               trace := trace w
                        ++ [EvRun [cloudquery_path; "sync"; spec_file_path]] |} in
  (returncode r = 0 ->
   run_xkcd_to_sqlite_sync R spec_file_path cloudquery_path w = (Ok tt, w'))
  /\ (returncode r <> 0 ->
      exists e : exn,
        run_xkcd_to_sqlite_sync R spec_file_path cloudquery_path w
        = (Raise e, w'))
  /\ (returncode r <> 0 ->
      forall text : string,
        bytes_decode (stdout r) = Ok text ->
        run_xkcd_to_sqlite_sync R spec_file_path cloudquery_path w
        = (Raise (Exception ("CloudQuery sync failed with return code "
                             +:+ Py.str_of_int (returncode r)
                             +:+ ". Output: " +:+ text)), w')).
Proof.
  intros Hrun w'. unfold run_xkcd_to_sqlite_sync, mbind, M_bind.
  rewrite (run_capture_eq R _ w _ _ Hrun). fold w'.
  split; [|split].
  - intros ->. reflexivity.
  - intros Hrc. apply Z.eqb_neq in Hrc. rewrite Hrc. cbn [negb].
    unfold lift. destruct (bytes_decode (stdout r)); eexists; reflexivity.
  - intros Hrc text Htext. apply Z.eqb_neq in Hrc. rewrite Hrc. cbn [negb].
    unfold lift. rewrite Htext. reflexivity.
Qed.

(** C3, at an output that is not UTF-8: the child exits with status 3
    after printing the single byte [0xff]; the task raises the
    [UnicodeDecodeError] of [decode], not the [Exception] that carries the
    exit code. *)
Theorem sync_undecodable_output :
  let R := with_child Demo.linux_x86_64 (Demo.child_fails 3 [xff] []) in
  run_xkcd_to_sqlite_sync R "sync_spec.yml" "/tmp/cloudquery" Demo.empty_world
  = (Raise (UnicodeDecodeError [xff]),
     {| fs := ∅;
        trace := [EvRun ["/tmp/cloudquery"; "sync"; "sync_spec.yml"]] |})
  /\ forall msg : string,
       fst (run_xkcd_to_sqlite_sync R "sync_spec.yml" "/tmp/cloudquery"
              Demo.empty_world)
       <> Raise (Exception msg).
Proof.
  split; [reflexivity|]. intros msg Habs. discriminate Habs.
Qed.

(** The same child with the printable output [hi]: the message carries
    the exit code and the text. *)
Example sync_failure_message :
  run_xkcd_to_sqlite_sync
    (with_child Demo.linux_x86_64 (Demo.child_fails 3 [x68; x69] [x65]))
    "sync_spec.yml" "/tmp/cloudquery" Demo.empty_world
  = (Raise (Exception "CloudQuery sync failed with return code 3. Output: hi"),
     {| fs := ∅;
        trace := [EvRun ["/tmp/cloudquery"; "sync"; "sync_spec.yml"]] |}).
Proof. reflexivity. Qed.

(** The six release assets, from the platform strings as hosts report
    them. *)
Example six_assets :
  map (fun R => _get_cloudquery_download_url R "v6.4.1")
    [Demo.host "Darwin" "x86_64"; Demo.host "Darwin" "arm64";
     Demo.host "Linux" "x86_64"; Demo.host "Linux" "aarch64";
     Demo.host "Windows" "AMD64"; Demo.host "Windows" "ARM64"]
  = map (fun name =>
           Ok ("https://github.com/cloudquery/cloudquery/releases/download/"
               +:+ "cli-v6.4.1/" +:+ name))
      ["cloudquery_darwin_amd64"; "cloudquery_darwin_arm64";
       "cloudquery_linux_amd64"; "cloudquery_linux_arm64";
       "cloudquery_windows_amd64.exe"; "cloudquery_windows_arm64.exe"].
Proof. reflexivity. Qed.

(** ** The theorems at concrete hosts *)

Lemma download_url_exact_witness :
  _get_cloudquery_download_url Demo.linux_x86_64 "v6.4.1"
  = Ok "https://github.com/cloudquery/cloudquery/releases/download/cli-v6.4.1/cloudquery_linux_amd64".
Proof.
  refine (proj1 (download_url_exact Demo.linux_x86_64 "v6.4.1"
                   "linux" "amd64" _ _ _)).
  - reflexivity.
  - right; left; reflexivity.
  - left; split; [left|]; reflexivity.
Defined.

(** C2, as stated, fails: a FreeBSD host with a file at the cache path
    gets the path back, not an error. *)
Lemma unsupported_platform_cached_counterexample :
  ~ recognized_os (Py.lower (platform_system Demo.freebsd_amd64))
  /\ download_cloudquery Demo.freebsd_amd64 "v6.4.1"
       (Demo.cached_world "/tmp/cloudquery")
     = (Ok "/tmp/cloudquery",
        after (Demo.cached_world "/tmp/cloudquery")
          [EvLog "File already exists at /tmp/cloudquery, skipping download."])
  /\ ~ (exists (e : exn) (w' : World),
          download_cloudquery Demo.freebsd_amd64 "v6.4.1"
            (Demo.cached_world "/tmp/cloudquery") = (Raise e, w')).
Proof.
  split; [|split].
  - intros [H | [H | H]]; discriminate H.
  - vm_compute. reflexivity.
  - intros (e & w' & H). vm_compute in H. discriminate H.
Qed.

Lemma unsupported_platform_fails_witness :
  exists msg : string,
    download_cloudquery Demo.freebsd_amd64 "v6.4.1" Demo.empty_world
    = (Raise (ValueError msg), Demo.empty_world)
    /\ msg = "Unsupported system: freebsd".
Proof.
  destruct (unsupported_platform_fails Demo.freebsd_amd64 "v6.4.1"
              Demo.empty_world)
    as (_ & Hfails).
  - intros [[H | [H | H]] _]; discriminate H.
  - destruct Hfails as (msg & Hrun & _ & Hos & _).
    + reflexivity.
    + exists msg. split; [exact Hrun|].
      apply Hos. intros [H | [H | H]]; discriminate H.
Defined.

Lemma download_idempotent_witness :
  fst (download_cloudquery Demo.linux_x86_64 "v6.4.1"
         (Demo.cached_world "/tmp/cloudquery")) = Ok "/tmp/cloudquery"
  /\ network_calls
       (trace (snd (download_cloudquery Demo.linux_x86_64 "v6.4.1"
                      (Demo.cached_world "/tmp/cloudquery")))) = [].
Proof.
  assert (Hhit : is_Some (fs (Demo.cached_world "/tmp/cloudquery")
                          !! cache_path Demo.linux_x86_64)).
  { eexists. vm_compute. reflexivity. }
  destruct (download_idempotent Demo.linux_x86_64 "v6.4.1" "v6.5.0"
              (Demo.cached_world "/tmp/cloudquery") Hhit
              _ _ _ _ eq_refl eq_refl)
    as (H1 & _ & H3 & _).
  split; [exact H1 | exact H3].
Defined.

Lemma returned_path_is_cache_path_witness :
  fst (download_cloudquery Demo.linux_x86_64 "v6.4.1" Demo.empty_world)
  = Ok "/tmp/cloudquery"
  /\ "/tmp/cloudquery" = cache_path Demo.linux_x86_64.
Proof.
  split; [reflexivity|].
  refine (proj1 (returned_path_is_cache_path Demo.linux_x86_64 "v6.4.1"
                   Demo.empty_world
                   (snd (download_cloudquery Demo.linux_x86_64 "v6.4.1"
                           Demo.empty_world))
                   "/tmp/cloudquery" _)).
  vm_compute. reflexivity.
Defined.

Lemma download_on_miss_witness :
  network_calls
    (trace (snd (download_cloudquery Demo.linux_x86_64 "v6.4.1"
                   Demo.empty_world)))
  = ["https://github.com/cloudquery/cloudquery/releases/download/cli-v6.4.1/cloudquery_linux_amd64"].
Proof.
  refine (proj1 (download_on_miss Demo.linux_x86_64 "v6.4.1" Demo.empty_world
                   _ _ _)).
  - reflexivity.
  - reflexivity.
Defined.

Lemma failed_get_leaves_files_witness :
  exists (e : exn) (w' : World),
    download_cloudquery
      (with_server Demo.linux_x86_64 (fun u => Ok (Demo.not_found u)))
      "v6.4.1" Demo.empty_world = (Raise e, w')
    /\ fs w' = ∅.
Proof.
  destruct (failed_get_leaves_files
              (with_server Demo.linux_x86_64 (fun u => Ok (Demo.not_found u)))
              "v6.4.1" Demo.empty_world
              "https://github.com/cloudquery/cloudquery/releases/download/cli-v6.4.1/cloudquery_linux_amd64")
    as (e & w' & Hrun & Hfs & _).
  - reflexivity.
  - reflexivity.
  - right. eexists. split; [reflexivity|].
    unfold failure_status. cbn. lia.
  - exists e, w'. split; [exact Hrun | exact Hfs].
Defined.


Lemma cache_hit_skips_platform_check_witness :
  _get_cloudquery_download_url Demo.freebsd_amd64 "v6.4.1"
  = Raise (ValueError "Unsupported system: freebsd")
  /\ fst (download_cloudquery Demo.freebsd_amd64 "v6.4.1"
            (Demo.cached_world "/tmp/cloudquery"))
     = Ok "/tmp/cloudquery".
Proof.
  split; [reflexivity|].
  refine (proj1 (cache_hit_skips_platform_check Demo.freebsd_amd64 "v6.4.1"
                   (Demo.cached_world "/tmp/cloudquery") _)).
  eexists. vm_compute. reflexivity.
Defined.

(** ** More on the download URL *)

Lemma recognized_arch_normalizes (raw : string) :
  recognized_arch raw -> exists arch : string, normalizes raw arch.
Proof.
  intros [H | [H | [H | H]]].
  - exists "amd64". left. auto.
  - exists "amd64". left. auto.
  - exists "arm64". right. auto.
  - exists "arm64". right. auto.
Qed.

Lemma normalizes_recognized (raw arch : string) :
  normalizes raw arch -> recognized_arch raw.
Proof.
  unfold recognized_arch. intros [[[H | H] _] | [[H | H] _]]; auto.
Qed.

(** A URL comes out on recognized platforms only. *)
Lemma url_ok_recognized (R : Runtime) (version u : string) :
  _get_cloudquery_download_url R version = Ok u ->
  recognized_os (Py.lower (platform_system R)) /\
  recognized_arch (Py.lower (platform_machine R)).
Proof.
  intros Hu.
  destruct (decide (recognized_os (Py.lower (platform_system R))))
    as [Hos|Hos].
  2:{ rewrite (url_of_unknown_os R version Hos) in Hu. discriminate Hu. }
  destruct (decide (recognized_arch (Py.lower (platform_machine R))))
    as [Harch|Harch].
  2:{ rewrite (url_of_unknown_arch R version Hos Harch) in Hu.
      discriminate Hu. }
  split; assumption.
Qed.

(** X1: the URL is built exactly on the recognized platforms: the call
    returns if and only if the lower-cased system is darwin, linux or
    windows and the lower-cased machine is x86_64, amd64, aarch64 or arm64;
    on every other host it raises a [ValueError] and nothing else. *)
Theorem url_ok_iff_recognized (R : Runtime) (version : string) :
  ((exists u : string, _get_cloudquery_download_url R version = Ok u) <->
   recognized_os (Py.lower (platform_system R)) /\
   recognized_arch (Py.lower (platform_machine R)))
  /\ (forall e : exn,
        _get_cloudquery_download_url R version = Raise e ->
        exists msg : string, e = ValueError msg).
Proof.
  split; [split|].
  - intros [u Hu]. exact (url_ok_recognized R version u Hu).
  - intros [Hos Harch].
    destruct (recognized_arch_normalizes _ Harch) as [arch Hn].
    eexists. exact (url_of_recognized R version _ arch eq_refl Hos Hn).
  - intros e He.
    destruct (decide (recognized_os (Py.lower (platform_system R))))
      as [Hos|Hos].
    2:{ rewrite (url_of_unknown_os R version Hos) in He.
        injection He as <-. eexists; reflexivity. }
    destruct (decide (recognized_arch (Py.lower (platform_machine R))))
      as [Harch|Harch].
    2:{ rewrite (url_of_unknown_arch R version Hos Harch) in He.
        injection He as <-. eexists; reflexivity. }
    destruct (recognized_arch_normalizes _ Harch) as [arch Hn].
    rewrite (url_of_recognized R version _ arch eq_refl Hos Hn) in He.
    discriminate He.
Qed.

Lemma length_append (a b : string) :
  String.length (a +:+ b) = (String.length a + String.length b)%nat.
Proof.
  induction a as [|c a IH]; [reflexivity|].
  change (S (String.length (a +:+ b))
          = S (String.length a + String.length b)). now rewrite IH.
Qed.

(** A common ending can be dropped from both sides. *)
Lemma append_cancel_r (a b t : string) : a +:+ t = b +:+ t -> a = b.
Proof.
  revert b. induction a as [|c a IH]; intros [|d b] H.
  - reflexivity.
  - apply (f_equal String.length) in H.
    rewrite !length_append in H. cbn [String.length] in H. lia.
  - apply (f_equal String.length) in H.
    rewrite !length_append in H. cbn [String.length] in H. lia.
  - change (String c (a +:+ t) = String d (b +:+ t)) in H.
    injection H as -> H. f_equal. now apply IH.
Qed.

(** X2: on one host two versions never share a URL: when the calls for
    [v1] and [v2] return the same URL, [v1] and [v2] are the same
    string. *)
Theorem url_injective_in_version (R : Runtime) (v1 v2 u : string) :
  _get_cloudquery_download_url R v1 = Ok u ->
  _get_cloudquery_download_url R v2 = Ok u ->
  v1 = v2.
Proof.
  intros H1 H2.
  destruct (url_ok_recognized R v1 u H1) as [Hos Harch].
  destruct (recognized_arch_normalizes _ Harch) as [arch Hn].
  rewrite (url_of_recognized R v1 _ arch eq_refl Hos Hn) in H1.
  rewrite (url_of_recognized R v2 _ arch eq_refl Hos Hn) in H2.
  rewrite <- H1 in H2. injection H2 as H. unfold release_url in H.
  apply String.app_inj in H.
  now apply append_cancel_r in H.
Qed.

(** ** Every way a download can go *)

(** A call to [download_cloudquery] goes one of six ways: a cache hit, a
    host the URL cannot be built for, an error of the transport, a failure
    status, a download whose version query cannot be read, or the whole
    download. *)
Lemma download_cases (R : Runtime) (version : string) (w : World) :
  (is_Some (fs w !! cache_path R)
   /\ download_cloudquery R version w =
      (Ok (cache_path R),
       after w [EvLog ("File already exists at " +:+ cache_path R
                       +:+ ", skipping download.")]))
  \/ (fs w !! cache_path R = None
      /\ exists e : exn,
           _get_cloudquery_download_url R version = Raise e
           /\ download_cloudquery R version w = (Raise e, w))
  \/ (fs w !! cache_path R = None
      /\ exists (u : string) (e : exn),
           _get_cloudquery_download_url R version = Ok u
           /\ requests_get R u = Raise e
           /\ download_cloudquery R version w
              = (Raise e, after w [downloading R u; EvGet u]))
  \/ (fs w !! cache_path R = None
      /\ exists (u : string) (r : Response) (msg : string),
           _get_cloudquery_download_url R version = Ok u
           /\ requests_get R u = Ok r
           /\ failure_status (status_code r)
           /\ download_cloudquery R version w
              = (Raise (HTTPError msg), after w [downloading R u; EvGet u]))
  \/ (fs w !! cache_path R = None
      /\ exists (u : string) (r : Response) (e : exn),
           _get_cloudquery_download_url R version = Ok u
           /\ requests_get R u = Ok r
           /\ ~ failure_status (status_code r)
           /\ version_read R w r = Raise e
           /\ download_cloudquery R version w
              = (Raise e,
                 {| fs := fresh_fs R w r;
                    trace := trace w ++ installing R u r |}))
  \/ (fs w !! cache_path R = None
      /\ exists (u : string) (r : Response) (text : string),
           _get_cloudquery_download_url R version = Ok u
           /\ requests_get R u = Ok r
           /\ ~ failure_status (status_code r)
           /\ version_read R w r = Ok text
           /\ download_cloudquery R version w
              = (Ok (cache_path R),
                 {| fs := fresh_fs R w r;
                    trace := trace w ++ fresh_events R u r text |})).
Proof.
  destruct (fs w !! cache_path R) as [f|] eqn:Hlook.
  { left. split; [eauto|]. apply download_hit. rewrite Hlook. eauto. }
  right.
  destruct (_get_cloudquery_download_url R version) as [u|e] eqn:Hurl.
  2:{ left. split; [reflexivity|]. exists e. split; [reflexivity|].
      now apply download_miss_unsupported. }
  right.
  destruct (requests_get R u) as [r|e] eqn:Hget.
  2:{ left. split; [reflexivity|]. exists u, e.
      split; [reflexivity|]. split; [assumption|].
      now apply download_miss_transport. }
  right.
  destruct (decide (400 <= status_code r < 600)) as [Hbad|Hok].
  { left. split; [reflexivity|].
    destruct (download_miss_status R version w u r Hlook Hurl Hget Hbad)
      as [msg Hmsg].
    exists u, r, msg. auto. }
  right.
  pose proof (download_fresh R version w u r Hlook Hurl Hget Hok) as Hrun.
  destruct (version_read R w r) as [text|e] eqn:Hread.
  - right. split; [reflexivity|]. exists u, r, text. auto 10.
  - left. split; [reflexivity|]. exists u, r, e. auto 10.
Qed.

(** X3: the only file [download_cloudquery] itself opens for writing or
    changes the mode of is the one at the cache path, at most once each,
    whatever the outcome of the call. *)
Theorem download_writes_only_cache_path (R : Runtime) (version : string)
  (w : World) :
  (opened_for_writing (trace (snd (download_cloudquery R version w)))
   = opened_for_writing (trace w)
   \/ opened_for_writing (trace (snd (download_cloudquery R version w)))
      = opened_for_writing (trace w) ++ [cache_path R])
  /\ (chmod_calls (trace (snd (download_cloudquery R version w)))
      = chmod_calls (trace w)
      \/ chmod_calls (trace (snd (download_cloudquery R version w)))
         = chmod_calls (trace w) ++ [(cache_path R, 493)]).
Proof.
  destruct (download_cases R version w)
    as [[_ ->] | [[_ (e & _ & ->)] | [[_ (u & e & _ & _ & ->)]
       | [[_ (u & r & msg & _ & _ & _ & ->)]
       | [[_ (u & r & e & _ & _ & _ & _ & ->)]
       | [_ (u & r & text & _ & _ & _ & _ & ->)]]]]]];
    cbn [snd after trace];
    rewrite ?opened_for_writing_app, ?chmod_calls_app.
  - cbn. rewrite !app_nil_r. auto.
  - auto.
  - cbn. rewrite !app_nil_r. auto.
  - cbn. rewrite !app_nil_r. auto.
  - rewrite opened_installing, chmod_calls_installing.
    split; [right; reflexivity|].
    destruct (decide (Py.lower (platform_system R) = "windows"));
      [left; now rewrite app_nil_r | right; reflexivity].
  - unfold fresh_events.
    rewrite opened_for_writing_app, chmod_calls_app,
      opened_installing, chmod_calls_installing.
    cbn. rewrite !app_nil_r.
    split; [right; reflexivity|].
    destruct (decide (Py.lower (platform_system R) = "windows"));
      [left; now rewrite app_nil_r | right; reflexivity].
Qed.

(** What a call that returns has returned, and what it leaves there. *)
Lemma download_ok_shape (R : Runtime) (version : string)
  (w w' : World) (p : string) :
  download_cloudquery R version w = (Ok p, w') ->
  p = cache_path R /\ is_Some (fs w' !! cache_path R).
Proof.
  intros Hrun.
  destruct (download_cases R version w)
    as [[Hhit H] | [[_ (e & _ & H)] | [[_ (u & e & _ & _ & H)]
       | [[_ (u & r & msg & _ & _ & _ & H)]
       | [[_ (u & r & e & _ & _ & _ & _ & H)]
       | [_ (u & r & text & _ & _ & _ & _ & H)]]]]]];
    rewrite H in Hrun; try discriminate Hrun;
    injection Hrun as <- <-; cbn [after fs]; (split; [reflexivity|]).
  - exact Hhit.
  - unfold fresh_fs. rewrite lookup_insert_eq. eauto.
Qed.

(** X4: a path that [download_cloudquery] returns is the path of a file
    that exists when the call ends, on a cache hit and after a download
    alike. *)
Theorem returned_path_exists (R : Runtime) (version : string)
  (w w' : World) (p : string) :
  download_cloudquery R version w = (Ok p, w') ->
  is_Some (fs w' !! p).
Proof.
  intros Hrun.
  destruct (download_ok_shape R version w w' p Hrun) as [-> Hsome].
  exact Hsome.
Qed.

(** X6: a call makes at most one request, and a request it makes goes to
    the URL that [_get_cloudquery_download_url] built for the host and the
    version asked for. *)
Theorem download_at_most_one_get (R : Runtime) (version : string)
  (w : World) :
  network_calls (trace (snd (download_cloudquery R version w)))
  = network_calls (trace w)
  \/ exists u : string,
       _get_cloudquery_download_url R version = Ok u
       /\ network_calls (trace (snd (download_cloudquery R version w)))
          = network_calls (trace w) ++ [u].
Proof.
  destruct (download_cases R version w)
    as [[_ ->] | [[_ (e & _ & ->)] | [[_ (u & e & Hu & _ & ->)]
       | [[_ (u & r & msg & Hu & _ & _ & ->)]
       | [[_ (u & r & e & Hu & _ & _ & _ & ->)]
       | [_ (u & r & text & Hu & _ & _ & _ & ->)]]]]]];
    cbn [snd after trace].
  - left. rewrite network_calls_app. cbn. now rewrite app_nil_r.
  - left. reflexivity.
  - right. exists u. split; [assumption|]. now rewrite network_calls_app.
  - right. exists u. split; [assumption|]. now rewrite network_calls_app.
  - right. exists u. split; [assumption|].
    now rewrite network_calls_app, network_calls_installing.
  - right. exists u. split; [assumption|].
    now rewrite network_calls_app, network_calls_fresh.
Qed.

(** X7: what a download has stored stays: after a call that downloaded
    version [v1], a call for any version [v2] returns the same path, makes
    no request and leaves the files alone, so the file still holds the body
    served for [v1]. *)
Theorem download_again_after_fresh (R : Runtime) (v1 v2 : string)
  (w w1 : World) (p : string) :
  fs w !! cache_path R = None ->
  download_cloudquery R v1 w = (Ok p, w1) ->
  exists (w2 : World) (u : string) (r : Response) (f : File),
    download_cloudquery R v2 w1 = (Ok p, w2)
    /\ fs w2 = fs w1
    /\ network_calls (trace w2) = network_calls (trace w1)
    /\ _get_cloudquery_download_url R v1 = Ok u
    /\ requests_get R u = Ok r
    /\ fs w2 !! p = Some f
    /\ data f = content r.
Proof.
  intros Hmiss Hrun.
  destruct (download_ok_inv R v1 w w1 p Hmiss Hrun)
    as (u & r & text & Hu & Hg & _ & _ & -> & ->).
  assert (Hhit : is_Some
            (fs {| fs := fresh_fs R w r;
                   trace := trace w ++ fresh_events R u r text |}
             !! cache_path R)).
  { cbn [fs]. unfold fresh_fs. rewrite lookup_insert_eq. eauto. }
  eexists. exists u, r, (installed R r).
  split; [apply (download_hit R v2 _ Hhit)|].
  cbn [after fs trace].
  split; [reflexivity|]. split.
  { rewrite (network_calls_app (trace w ++ fresh_events R u r text)).
    cbn. now rewrite app_nil_r. }
  split; [assumption|]. split; [assumption|].
  split; [|reflexivity].
  unfold fresh_fs. now rewrite lookup_insert_eq.
Qed.

(** X15: a version query that cannot be read fails one call only: the
    call raises the error of the read after the file is written, and the
    next call, for any version, finds the file, returns the cache path and
    makes no request; the version query is not run again. *)
Theorem download_after_unreadable_version (R : Runtime) (v1 v2 : string)
  (w : World) (u : string) (r : Response) (e : exn) :
  fs w !! cache_path R = None ->
  _get_cloudquery_download_url R v1 = Ok u ->
  requests_get R u = Ok r ->
  ~ failure_status (status_code r) ->
  version_read R w r = Raise e ->
  exists w1 w2 : World,
    download_cloudquery R v1 w = (Raise e, w1)
    /\ download_cloudquery R v2 w1 = (Ok (cache_path R), w2)
    /\ fs w2 = fs w1
    /\ trace w2
       = trace w1
         ++ [EvLog ("File already exists at " +:+ cache_path R
                    +:+ ", skipping download.")].
Proof.
  intros Hmiss Hurl Hget Hok Hread.
  pose proof (download_fresh R v1 w u r Hmiss Hurl Hget Hok) as Hrun.
  rewrite Hread in Hrun.
  assert (Hhit : is_Some
            (fs {| fs := fresh_fs R w r;
                   trace := trace w ++ installing R u r |}
             !! cache_path R)).
  { cbn [fs]. unfold fresh_fs. rewrite lookup_insert_eq. eauto. }
  eexists. eexists. split; [exact Hrun|].
  split; [apply (download_hit R v2 _ Hhit)|].
  split; reflexivity.
Qed.

(** ** More on the sync task *)

(** The trace of the sync task: one child process, whatever comes of it. *)
Lemma sync_trace (R : Runtime) (spec_file_path cloudquery_path : string)
  (w : World) :
  trace (snd (run_xkcd_to_sqlite_sync R spec_file_path cloudquery_path w))
  = trace w ++ [EvRun [cloudquery_path; "sync"; spec_file_path]].
Proof.
  unfold run_xkcd_to_sqlite_sync, mbind, M_bind, run_capture.
  destruct (subprocess_run R [cloudquery_path; "sync"; spec_file_path] (fs w))
    as [[r|e] files]; [|reflexivity].
  destruct (negb (returncode r =? 0)); [|reflexivity].
  unfold lift. destruct (bytes_decode (stdout r)); reflexivity.
Qed.

Lemma sync_child_runs (R : Runtime) (spec_file_path cloudquery_path : string)
  (w : World) :
  child_runs
    (trace (snd (run_xkcd_to_sqlite_sync R spec_file_path cloudquery_path w)))
  = child_runs (trace w) ++ [[cloudquery_path; "sync"; spec_file_path]].
Proof.
  rewrite sync_trace. unfold child_runs. now rewrite omap_app.
Qed.

Lemma sync_network_calls (R : Runtime)
  (spec_file_path cloudquery_path : string) (w : World) :
  network_calls
    (trace (snd (run_xkcd_to_sqlite_sync R spec_file_path cloudquery_path w)))
  = network_calls (trace w).
Proof.
  rewrite sync_trace, network_calls_app. cbn. now rewrite app_nil_r.
Qed.

(** X8: the captured standard error plays no part: two children that end
    with the same exit code, the same standard output and the same files
    give the task the same outcome, whatever each wrote to its standard
    error. *)
Theorem sync_ignores_stderr (R R' : Runtime)
  (spec_file_path cloudquery_path : string) (w : World)
  (r r' : CompletedProcess) (files : gmap string File) :
  subprocess_run R [cloudquery_path; "sync"; spec_file_path] (fs w)
  = (Ok r, files) ->
  subprocess_run R' [cloudquery_path; "sync"; spec_file_path] (fs w)
  = (Ok r', files) ->
  returncode r = returncode r' ->
  stdout r = stdout r' ->
  run_xkcd_to_sqlite_sync R spec_file_path cloudquery_path w
  = run_xkcd_to_sqlite_sync R' spec_file_path cloudquery_path w.
Proof.
  intros Hr Hr' Hrc Hout.
  unfold run_xkcd_to_sqlite_sync, mbind, M_bind.
  rewrite (run_capture_eq R _ w _ _ Hr), (run_capture_eq R' _ w _ _ Hr').
  now rewrite Hrc, Hout.
Qed.

(** X9: the sync task starts exactly one child process, with the
    arguments [cloudquery_path], [sync], [spec_file_path], and makes no
    request, whatever the outcome; when the process cannot be started the
    error of [subprocess.run] is raised as it is. *)
Theorem sync_runs_one_child (R : Runtime)
  (spec_file_path cloudquery_path : string) (w : World) :
  child_runs
    (trace (snd (run_xkcd_to_sqlite_sync R spec_file_path cloudquery_path w)))
  = child_runs (trace w) ++ [[cloudquery_path; "sync"; spec_file_path]]
  /\ network_calls
       (trace (snd (run_xkcd_to_sqlite_sync R spec_file_path
                      cloudquery_path w)))
     = network_calls (trace w)
  /\ (forall (e : exn) (files : gmap string File),
        subprocess_run R [cloudquery_path; "sync"; spec_file_path] (fs w)
        = (Raise e, files) ->
        fst (run_xkcd_to_sqlite_sync R spec_file_path cloudquery_path w)
        = Raise e).
Proof.
  split; [apply sync_child_runs|]. split; [apply sync_network_calls|].
  intros e files Hrun.
  unfold run_xkcd_to_sqlite_sync, mbind, M_bind.
  now rewrite (run_capture_eq R _ w _ _ Hrun).
Qed.

(** Bytes below [0x80] are UTF-8 as they are. *)
Lemma utf8_valid_ascii (bs : list byte) :
  Forall (fun b => Py.in_range 0 127 b = true) bs ->
  Py.utf8_valid bs = true.
Proof.
  induction 1 as [|b bs Hb _ IH]; [reflexivity|].
  cbn [Py.utf8_valid].
  now rewrite Hb.
Qed.

Lemma append_assoc (a b c : string) : (a +:+ b) +:+ c = a +:+ b +:+ c.
Proof.
  induction a as [|x a IH]; [reflexivity|].
  change (String x ((a +:+ b) +:+ c) = String x (a +:+ b +:+ c)).
  now rewrite IH.
Qed.

(** X10: when the child ends with a non-zero exit code and its captured
    output is plain ASCII, the task raises the [Exception] whose message
    contains the exit code in decimal and the output, byte for byte. *)
Theorem sync_failure_on_ascii_output (R : Runtime)
  (spec_file_path cloudquery_path : string) (w : World)
  (r : CompletedProcess) (files : gmap string File) :
  subprocess_run R [cloudquery_path; "sync"; spec_file_path] (fs w)
  = (Ok r, files) ->
  returncode r <> 0 ->
  Forall (fun b => Py.in_range 0 127 b = true) (stdout r) ->
  exists msg : string,
    fst (run_xkcd_to_sqlite_sync R spec_file_path cloudquery_path w)
    = Raise (Exception msg)
    /\ Py.contains msg (Py.str_of_int (returncode r))
    /\ Py.contains msg (string_of_list_byte (stdout r))
    /\ list_byte_of_string (string_of_list_byte (stdout r)) = stdout r.
Proof.
  intros Hrun Hrc Hascii.
  destruct (sync_outcome R spec_file_path cloudquery_path w r files Hrun)
    as (_ & _ & Hmsg).
  assert (Hdec : bytes_decode (stdout r)
                 = Ok (string_of_list_byte (stdout r))).
  { unfold bytes_decode. now rewrite (utf8_valid_ascii _ Hascii). }
  rewrite (Hmsg Hrc _ Hdec). eexists. split; [reflexivity|].
  split; [|split].
  - eexists _, _. reflexivity.
  - exists ("CloudQuery sync failed with return code "
            +:+ Py.str_of_int (returncode r) +:+ ". Output: "),
           EmptyString.
    rewrite append_empty_r. now rewrite !append_assoc.
  - apply list_byte_of_string_of_list_byte.
Qed.

(** X14: once the child process has ended, the task raises if and only
    if the exit code is not zero; on exit code zero it returns [None] and
    the captured output is not decoded, so output that is not UTF-8 does no
    harm there. *)
Theorem sync_raises_iff_nonzero (R : Runtime)
  (spec_file_path cloudquery_path : string) (w : World)
  (r : CompletedProcess) (files : gmap string File) :
  subprocess_run R [cloudquery_path; "sync"; spec_file_path] (fs w)
  = (Ok r, files) ->
  ((exists e : exn,
      fst (run_xkcd_to_sqlite_sync R spec_file_path cloudquery_path w)
      = Raise e)
   <-> returncode r <> 0)
  /\ (returncode r = 0 ->
      run_xkcd_to_sqlite_sync R spec_file_path cloudquery_path w
      = (Ok tt,
         {| fs := files;
            trace := trace w
                     ++ [EvRun [cloudquery_path; "sync"; spec_file_path]] |})).
Proof.
  intros Hrun.
  destruct (sync_outcome R spec_file_path cloudquery_path w r files Hrun)
    as (Hzero & Hnonzero & _).
  split; [split|exact Hzero].
  - intros [e He] Hrc. rewrite (Hzero Hrc) in He. discriminate He.
  - intros Hrc. destruct (Hnonzero Hrc) as [e He]. exists e. now rewrite He.
Qed.

(** ** The further theorems at concrete hosts *)

Lemma url_injective_in_version_witness :
  _get_cloudquery_download_url Demo.darwin_arm64 "v6.4.1"
  = Ok "https://github.com/cloudquery/cloudquery/releases/download/cli-v6.4.1/cloudquery_darwin_arm64"
  /\ "v6.4.1" = "v6.4.1".
Proof.
  split; [reflexivity|].
  refine (url_injective_in_version Demo.darwin_arm64 "v6.4.1" "v6.4.1" _ _ _);
    reflexivity.
Defined.

Lemma returned_path_exists_witness :
  is_Some (fs (snd (download_cloudquery Demo.linux_x86_64 "v6.4.1"
                      Demo.empty_world))
           !! "/tmp/cloudquery").
Proof.
  refine (returned_path_exists Demo.linux_x86_64 "v6.4.1" Demo.empty_world
            _ "/tmp/cloudquery" _).
  vm_compute. reflexivity.
Defined.

Lemma download_again_after_fresh_witness :
  exists (w2 : World) (u : string) (r : Response) (f : File),
    download_cloudquery Demo.linux_x86_64 "v7.0.0"
      (snd (download_cloudquery Demo.linux_x86_64 "v6.4.1" Demo.empty_world))
    = (Ok "/tmp/cloudquery", w2)
    /\ fs w2
       = fs (snd (download_cloudquery Demo.linux_x86_64 "v6.4.1"
                    Demo.empty_world))
    /\ network_calls (trace w2)
       = network_calls
           (trace (snd (download_cloudquery Demo.linux_x86_64 "v6.4.1"
                          Demo.empty_world)))
    /\ _get_cloudquery_download_url Demo.linux_x86_64 "v6.4.1" = Ok u
    /\ requests_get Demo.linux_x86_64 u = Ok r
    /\ fs w2 !! "/tmp/cloudquery" = Some f
    /\ data f = content r.
Proof.
  refine (download_again_after_fresh Demo.linux_x86_64 "v6.4.1" "v7.0.0"
            Demo.empty_world _ "/tmp/cloudquery" _ _).
  - reflexivity.
  - vm_compute. reflexivity.
Defined.

Lemma sync_ignores_stderr_witness :
  run_xkcd_to_sqlite_sync
    (with_child Demo.linux_x86_64 (Demo.child_fails 3 [x68; x69] [x65]))
    "sync_spec.yml" "/tmp/cloudquery" Demo.empty_world
  = run_xkcd_to_sqlite_sync
      (with_child Demo.linux_x86_64 (Demo.child_fails 3 [x68; x69] []))
      "sync_spec.yml" "/tmp/cloudquery" Demo.empty_world.
Proof.
  refine (sync_ignores_stderr
            (with_child Demo.linux_x86_64 (Demo.child_fails 3 [x68; x69] [x65]))
            (with_child Demo.linux_x86_64 (Demo.child_fails 3 [x68; x69] []))
            "sync_spec.yml" "/tmp/cloudquery" Demo.empty_world
            _ _ ∅ _ _ _ _); reflexivity.
Defined.

Lemma sync_failure_on_ascii_output_witness :
  exists msg : string,
    fst (run_xkcd_to_sqlite_sync
           (with_child Demo.linux_x86_64 (Demo.child_fails 3 [x68; x69] [x65]))
           "sync_spec.yml" "/tmp/cloudquery" Demo.empty_world)
    = Raise (Exception msg)
    /\ Py.contains msg (Py.str_of_int 3)
    /\ Py.contains msg "hi"
    /\ list_byte_of_string "hi" = [x68; x69].
Proof.
  refine (sync_failure_on_ascii_output
            (with_child Demo.linux_x86_64 (Demo.child_fails 3 [x68; x69] [x65]))
            "sync_spec.yml" "/tmp/cloudquery" Demo.empty_world
            {| returncode := 3; stdout := [x68; x69]; stderr := [x65] |}
            ∅ _ _ _).
  - reflexivity.
  - intros H. discriminate H.
  - repeat constructor.
Defined.

Lemma sync_raises_iff_nonzero_witness :
  run_xkcd_to_sqlite_sync
    (with_child Demo.linux_x86_64 (Demo.child_fails 0 [xff] []))
    "sync_spec.yml" "/tmp/cloudquery" Demo.empty_world
  = (Ok tt,
     {| fs := ∅;
        trace := trace Demo.empty_world
                 ++ [EvRun ["/tmp/cloudquery"; "sync"; "sync_spec.yml"]] |}).
Proof.
  refine (proj2 (sync_raises_iff_nonzero
                   (with_child Demo.linux_x86_64 (Demo.child_fails 0 [xff] []))
                   "sync_spec.yml" "/tmp/cloudquery" Demo.empty_world
                   {| returncode := 0; stdout := [xff]; stderr := [] |}
                   ∅ _) _); reflexivity.
Defined.

Lemma download_after_unreadable_version_witness :
  exists w1 w2 : World,
    download_cloudquery (with_popen Demo.linux_x86_64 (fun _ _ => [xff]))
      "v6.4.1" Demo.empty_world
    = (Raise (UnicodeDecodeError [xff]), w1)
    /\ download_cloudquery (with_popen Demo.linux_x86_64 (fun _ _ => [xff]))
         "v6.5.0" w1
       = (Ok "/tmp/cloudquery", w2)
    /\ fs w2 = fs w1
    /\ trace w2
       = trace w1
         ++ [EvLog "File already exists at /tmp/cloudquery, skipping download."].
Proof.
  refine (download_after_unreadable_version
            (with_popen Demo.linux_x86_64 (fun _ _ => [xff]))
            "v6.4.1" "v6.5.0" Demo.empty_world _ (Demo.ok_response _)
            (UnicodeDecodeError [xff]) _ _ _ _ _).
  - reflexivity.
  - reflexivity.
  - reflexivity.
  - unfold failure_status. cbn. lia.
  - reflexivity.
Defined.
